(** * Shape calculator

    A shallow embedding of the C++ shape calculator
    ([shapes/Shape.h], [shapes/Circle.h], [shapes/Circle.cpp],
    [shapes/Rectangle.h], [utils/MathUtils.h], [main.cpp]) and the
    properties its specification states about it.

    - a C++ [double] is a binary64 value: the kernel's primitive [float],
      whose operations round as IEEE 754 prescribes;
    - a function that may throw returns an [outcome];
    - code that mutates an object or writes to a stream runs in the monad
      [M S], which threads a state of type [S] and keeps it when an
      exception unwinds;
    - the abstract class [Shape] is a type class, a
      [std::unique_ptr<Shape>] a value packed with its instance. *)

From Stdlib Require Import ZArith Floats String List Bool Lia.
From ExtLib Require Import Structures.Monad Structures.MonadExc.
Import ListNotations.
Import MonadNotation.

Set Warnings "-inexact-float".
Local Open Scope monad_scope.

(** ** Exceptions *)

(** [std::invalid_argument] is the only exception the program constructs;
    it derives from [std::exception] and carries its message. *)
Inductive exception : Type :=
| invalid_argument (msg : string).

(** [std::exception::what]. *)
Definition what (e : exception) : string :=
  match e with
  | invalid_argument msg => msg
  end.

(** The result of a call that may throw. *)
Inductive outcome (A : Type) : Type :=
| Returns (a : A)
| Throws (e : exception).
Arguments Returns {A} a.
Arguments Throws {A} e.

#[global] Instance Monad_outcome : Monad outcome :=
  {| ret := fun _ a => Returns a;
     bind := fun _ _ m k =>
       match m with
       | Returns a => k a
       | Throws e => Throws e
       end |}.

#[global] Instance Exc_outcome : MonadExc exception outcome :=
  {| raise := fun _ e => Throws e;
     catch := fun _ body handler =>
       match body with
       | Returns a => Returns a
       | Throws e => handler e
       end |}.

(** ** State and exceptions

    A computation over a mutable state [S].  Unlike a state transformer
    stacked on an error monad, a throw keeps the state reached so far:
    what was written to a stream before the exception stays written. *)
Definition M (S A : Type) : Type := S -> outcome A * S.

#[global] Instance Monad_M {S : Type} : Monad (M S) :=
  {| ret := fun _ a s => (Returns a, s);
     bind := fun _ _ m k s =>
       match m s with
       | (Returns a, s') => k a s'
       | (Throws e, s') => (Throws e, s')
       end |}.

#[global] Instance Exc_M {S : Type} : MonadExc exception (M S) :=
  {| raise := fun _ e s => (Throws e, s);
     catch := fun _ body handler s =>
       match body s with
       | (Returns a, s') => (Returns a, s')
       | (Throws e, s') => handler e s'
       end |}.

(** A call that touches no state, made from stateful code. *)
Definition lift {S A : Type} (o : outcome A) : M S A :=
  fun s => (o, s).

Definition get {S : Type} : M S S :=
  fun s => (Returns s, s).

Definition put {S : Type} (s : S) : M S unit :=
  fun _ => (Returns tt, s).

(** ** Stream formatting

    [operator<<(std::ostream&, double)] belongs to the C++ standard
    library, not to this program: the text it produces for a [double] on a
    stream with default flags is a parameter of the model. *)
Class StreamFormat : Type :=
  { show_double : float -> string }.

(** ** utils/MathUtils.h *)
Module MathUtils.
Local Open Scope float_scope.

Definition PI : float := 3.14159265358979323846.
Definition E : float := 2.71828182845904523536.

Definition square (x : float) : float := x * x.

Definition cube (x : float) : float := x * x * x.
End MathUtils.

(** ** shapes/Shape.h

    The four pure virtual methods; each is [const]. *)
Class Shape (T : Type) : Type :=
  { area : T -> float;
    perimeter : T -> float;
    getName : T -> string;
    getDescription : T -> string }.

(** ** shapes/Circle.h, shapes/Circle.cpp *)
Module Circle.
Local Open Scope float_scope.

Record t : Type := { radius_ : float }.

Definition PI : float := 3.14159265358979323846.

(** [validateRadius] is a [const] member that does not read the object. *)
Definition validateRadius (r : float) : outcome unit :=
  if r <=? 0 then raise (invalid_argument "Radius must be positive")
  else ret tt.

(** The constructor: the member initialiser stores [radius], then the
    body validates; when it throws, the object under construction is
    gone and the caller receives the exception only. *)
Definition Circle (radius : float) : outcome t :=
  let this := {| radius_ := radius |} in
  validateRadius radius ;;
  ret this.

Definition area (this : t) : float := PI * radius_ this * radius_ this.

Definition perimeter (this : t) : float := 2 * PI * radius_ this.

Definition getName (this : t) : string := "Circle".

Definition getDescription `{StreamFormat} (this : t) : string :=
  ("Circle with radius " ++ show_double (radius_ this))%string.

Definition getRadius (this : t) : float := radius_ this.

(** The only mutating member: the object is the state. *)
Definition setRadius (radius : float) : M t unit :=
  lift (validateRadius radius) ;;
  put {| radius_ := radius |}.

Definition getDiameter (this : t) : float := 2 * radius_ this.

#[global] Instance Shape_Circle `{StreamFormat} : Shape t :=
  Build_Shape t area perimeter getName getDescription.
End Circle.

(** ** shapes/Rectangle.h

    The header declares the class; the file that defines its members is
    not part of the sources at hand. *)

(** Modelled from the spec: the wording of Rectangle's description, absent
    with [Rectangle.cpp].  The specification says only that it is "a
    formatted string embedding both dimensions", so the text is a function
    of the two formatted dimensions and otherwise a parameter. *)
Class RectangleWording : Type :=
  { describe_rectangle : string -> string -> string }.

Module Rectangle.
Local Open Scope float_scope.

Record t : Type := { width_ : float; height_ : float }.

(** Modelled from the spec: the constructor [Rectangle::Rectangle],
    defined in the absent [Rectangle.cpp]: "accepts [width], [height]",
    "no validation is performed at construction". *)
Definition Rectangle (width height : float) : outcome t :=
  ret {| width_ := width; height_ := height |}.

(** Modelled from the spec: [Rectangle::area], defined in the absent
    [Rectangle.cpp]: "area = width * height". *)
Definition area (this : t) : float := width_ this * height_ this.

(** Modelled from the spec: [Rectangle::perimeter], defined in the absent
    [Rectangle.cpp]: "perimeter = 2 * (width + height)". *)
Definition perimeter (this : t) : float := 2 * (width_ this + height_ this).

(** Modelled from the spec: [Rectangle::getName], defined in the absent
    [Rectangle.cpp]: name = "Rectangle". *)
Definition getName (this : t) : string := "Rectangle".

(** Modelled from the spec: [Rectangle::getDescription], defined in the
    absent [Rectangle.cpp]: "a formatted string embedding both
    dimensions". *)
Definition getDescription `{StreamFormat} `{RectangleWording} (this : t)
  : string :=
  describe_rectangle (show_double (width_ this)) (show_double (height_ this)).

(** Modelled from the spec: the accessors [Rectangle::getWidth] and
    [Rectangle::getHeight], defined in the absent [Rectangle.cpp]; the
    specification lists [width] and [height] as the attributes. *)
Definition getWidth (this : t) : float := width_ this.
Definition getHeight (this : t) : float := height_ this.

#[global] Instance Shape_Rectangle `{StreamFormat} `{RectangleWording}
  : Shape t :=
  Build_Shape t area perimeter getName getDescription.
End Rectangle.

(** ** main.cpp *)

(** What a stream has received: one item per [operator<<]. *)
Inductive token : Type :=
| Str (s : string)
| Dbl (d : float)
| Endl.

(** [std::cout] and [std::cerr]. *)
Record streams : Type := { cout : list token; cerr : list token }.

Definition no_output : streams := {| cout := []; cerr := [] |}.

Definition to_cout (items : list token) : M streams unit :=
  fun s => (Returns tt, {| cout := cout s ++ items; cerr := cerr s |}).

Definition to_cerr (items : list token) : M streams unit :=
  fun s => (Returns tt, {| cout := cout s; cerr := cerr s ++ items |}).

(** A [std::unique_ptr<Shape>]: an object of some class derived from
    [Shape], with that class's overrides. *)
Record unique_ptr_Shape : Type :=
  make_unique { pointee_class : Type;
                pointee_vtable : Shape pointee_class;
                pointee : pointee_class }.
Arguments make_unique {pointee_class pointee_vtable} pointee.

(** Virtual calls through the pointer. *)
Definition ptr_area (p : unique_ptr_Shape) : float :=
  @area _ (pointee_vtable p) (pointee p).
Definition ptr_perimeter (p : unique_ptr_Shape) : float :=
  @perimeter _ (pointee_vtable p) (pointee p).
Definition ptr_getName (p : unique_ptr_Shape) : string :=
  @getName _ (pointee_vtable p) (pointee p).
Definition ptr_getDescription (p : unique_ptr_Shape) : string :=
  @getDescription _ (pointee_vtable p) (pointee p).

Definition printShapeDetails (shape : unique_ptr_Shape) : M streams unit :=
  to_cout [Str "Shape: "; Str (ptr_getName shape); Endl] ;;
  to_cout [Str "  Area: "; Dbl (ptr_area shape); Endl] ;;
  to_cout [Str "  Perimeter: "; Dbl (ptr_perimeter shape); Endl] ;;
  to_cout [Str "  Description: "; Str (ptr_getDescription shape); Endl] ;;
  to_cout [Endl].

(** A range-[for] whose body is a statement. *)
Fixpoint for_each {S A : Type} (xs : list A) (body : A -> M S unit)
  : M S unit :=
  match xs with
  | [] => ret tt
  | x :: rest => body x ;; for_each rest body
  end.

(** The body of [main] with the four literals of the demonstration as
    arguments, so that the failure path can be run as well (the
    specification's second scenario puts [-1.0] for a radius).  Control
    leaves the [try] block either at its end, and then reaches
    [return 0], or through the handler's [return 1]. *)
Definition main_with `{StreamFormat} `{RectangleWording}
  (r1 w h r2 : float) : M streams Z :=
  to_cout [Str "Shape Calculator v1.0"; Endl] ;;
  to_cout [Str "====================="; Endl; Endl] ;;
  let shapes : list unique_ptr_Shape := [] in
  catch
    (c1 <- lift (Circle.Circle r1) ;;
     let shapes := shapes ++ [make_unique c1] in
     r <- lift (Rectangle.Rectangle w h) ;;
     let shapes := shapes ++ [make_unique r] in
     c2 <- lift (Circle.Circle r2) ;;
     let shapes := shapes ++ [make_unique c2] in
     for_each shapes printShapeDetails ;;
     let totalArea :=
       fold_left (fun total shape => (total + ptr_area shape)%float)
                 shapes 0%float in
     to_cout [Str "Total area of all shapes: "; Dbl totalArea; Endl] ;;
     ret 0%Z)
    (fun e =>
       to_cerr [Str "Error: "; Str (what e); Endl] ;;
       ret 1%Z).

(** [main]; its arguments are not used. *)
Definition main `{StreamFormat} `{RectangleWording}
  (argc : Z) (argv : list string) : M streams Z :=
  main_with 5.0 4.0 6.0 3.0.


(** ** Calls on a live object

    A [const] member reads the object and leaves it as it is. *)
Definition const_call {T A : Type} (method : T -> A) : M T A :=
  this <- get ;;
  ret (method this).

(** What a member call hands back. *)
Inductive reply : Type :=
| Number (d : float)
| Text (s : string)
| Void.

(** The interface of [Shape], as calls made through a reference. *)
Inductive query : Type :=
| q_area
| q_perimeter
| q_getName
| q_getDescription.

Definition ask {T : Type} `{Shape T} (q : query) : M T reply :=
  match q with
  | q_area => d <- const_call area ;; ret (Number d)
  | q_perimeter => d <- const_call perimeter ;; ret (Number d)
  | q_getName => s <- const_call getName ;; ret (Text s)
  | q_getDescription => s <- const_call getDescription ;; ret (Text s)
  end.

(** The public members of [Circle], as calls on one object. *)
Inductive circle_call : Type :=
| c_shape (q : query)
| c_getRadius
| c_setRadius (radius : float)
| c_getDiameter.

Definition invoke `{StreamFormat} (c : circle_call) : M Circle.t reply :=
  match c with
  | c_shape q => ask q
  | c_getRadius => d <- const_call Circle.getRadius ;; ret (Number d)
  | c_setRadius radius => Circle.setRadius radius ;; ret Void
  | c_getDiameter => d <- const_call Circle.getDiameter ;; ret (Number d)
  end.

(** The object after a series of calls; a caller that catches the
    exception of one call goes on with the same object. *)
Definition lifetime `{StreamFormat} (calls : list circle_call)
  (this : Circle.t) : Circle.t :=
  fold_left (fun obj c => snd (invoke c obj)) calls this.

(** ** Members as they run

    What a member function of this program can touch: the object it is
    called on and the two standard streams; the program has no other
    mutable state.  A member body is a computation over both, written
    statement by statement: it may assign to the object and it may write
    to a stream, whether or not the member is declared [const]. *)
Record world (T : Type) : Type := { self : T; stdio : streams }.
Arguments Build_world {T} self stdio.
Arguments self {T} w.
Arguments stdio {T} w.

(** Reading a field of [*this]. *)
Definition read_this {T : Type} : M (world T) T :=
  fun w => (Returns (self w), w).

(** A member of the object-only model, run against the object of a
    world. *)
Definition on_self {T A : Type} (m : M T A) : M (world T) A :=
  fun w => let (r, this') := m (self w) in
           (r, {| self := this'; stdio := stdio w |}).

(** The bodies of [Circle]'s overrides of the [Shape] interface, from
    [Circle.cpp]. *)
Module CircleBody.
Local Open Scope float_scope.

Definition area : M (world Circle.t) float :=
  this <- read_this ;;
  ret (Circle.PI * Circle.radius_ this * Circle.radius_ this).

Definition perimeter : M (world Circle.t) float :=
  this <- read_this ;;
  ret (2 * Circle.PI * Circle.radius_ this).

Definition getName : M (world Circle.t) string :=
  ret "Circle"%string.

(** [oss] is a local [std::ostringstream], empty when declared; each
    [<<] appends to it and [oss.str()] is its content. *)
Definition getDescription `{StreamFormat} : M (world Circle.t) string :=
  let oss := EmptyString in
  let oss := (oss ++ "Circle with radius ")%string in
  this <- read_this ;;
  let oss := (oss ++ show_double (Circle.radius_ this))%string in
  ret oss.

Definition setRadius (radius : float) : M (world Circle.t) unit :=
  on_self (Circle.setRadius radius).
End CircleBody.

(** The bodies of [Rectangle]'s overrides, which are in the absent
    [Rectangle.cpp]. *)
Module RectangleBody.
Local Open Scope float_scope.

(** Modelled from the spec: the body of [Rectangle::area], absent with
    [Rectangle.cpp]: "area = width * height", "a pure function of the
    instance's own state, with no observable side effects". *)
Definition area : M (world Rectangle.t) float :=
  this <- read_this ;;
  ret (Rectangle.width_ this * Rectangle.height_ this).

(** Modelled from the spec: the body of [Rectangle::perimeter], absent
    with [Rectangle.cpp]: "perimeter = 2 * (width + height)". *)
Definition perimeter : M (world Rectangle.t) float :=
  this <- read_this ;;
  ret (2 * (Rectangle.width_ this + Rectangle.height_ this)).

(** Modelled from the spec: the body of [Rectangle::getName], absent
    with [Rectangle.cpp]: name = "Rectangle". *)
Definition getName : M (world Rectangle.t) string :=
  ret "Rectangle"%string.

(** Modelled from the spec: the body of [Rectangle::getDescription],
    absent with [Rectangle.cpp]: "a formatted string embedding both
    dimensions". *)
Definition getDescription `{StreamFormat} `{RectangleWording}
  : M (world Rectangle.t) string :=
  this <- read_this ;;
  ret (describe_rectangle (show_double (Rectangle.width_ this))
                          (show_double (Rectangle.height_ this))).
End RectangleBody.

(** A call through the [Shape] interface, dispatched to the override. *)
Definition Circle_member `{StreamFormat} (q : query)
  : M (world Circle.t) reply :=
  match q with
  | q_area => d <- CircleBody.area ;; ret (Number d)
  | q_perimeter => d <- CircleBody.perimeter ;; ret (Number d)
  | q_getName => s <- CircleBody.getName ;; ret (Text s)
  | q_getDescription => s <- CircleBody.getDescription ;; ret (Text s)
  end.

Definition Rectangle_member `{StreamFormat} `{RectangleWording} (q : query)
  : M (world Rectangle.t) reply :=
  match q with
  | q_area => d <- RectangleBody.area ;; ret (Number d)
  | q_perimeter => d <- RectangleBody.perimeter ;; ret (Number d)
  | q_getName => s <- RectangleBody.getName ;; ret (Text s)
  | q_getDescription => s <- RectangleBody.getDescription ;; ret (Text s)
  end.

(** A series of interface calls made one after the other, with the
    replies in the order of the calls. *)
Fixpoint call_all {T : Type} (member : query -> M (world T) reply)
  (qs : list query) : M (world T) (list reply) :=
  match qs with
  | [] => ret []
  | q :: rest =>
      r <- member q ;;
      rs <- call_all member rest ;;
      ret (r :: rs)
  end.

(** The reply to an interface call as a function of the object alone. *)
Definition reply_of {T : Type} `{Shape T} (q : query) (this : T) : reply :=
  match q with
  | q_area => Number (area this)
  | q_perimeter => Number (perimeter this)
  | q_getName => Text (getName this)
  | q_getDescription => Text (getDescription this)
  end.

(** ** Call graph

    Who calls whom, read off the function bodies.  A virtual call
    through [Shape] may reach either override.  The members of
    [Rectangle] are taken to call nothing of this program (their bodies
    are in the absent [Rectangle.cpp]; the specification gives them as
    closed formulas over the two fields). *)
Inductive function : Type :=
| f_main
| f_printShapeDetails
| f_Circle_Circle
| f_Circle_validateRadius
| f_Circle_area
| f_Circle_perimeter
| f_Circle_getName
| f_Circle_getDescription
| f_Circle_getRadius
| f_Circle_setRadius
| f_Circle_getDiameter
| f_Rectangle_Rectangle
| f_Rectangle_area
| f_Rectangle_perimeter
| f_Rectangle_getName
| f_Rectangle_getDescription
| f_Rectangle_getWidth
| f_Rectangle_getHeight
| f_MathUtils_square
| f_MathUtils_cube.

Definition callees (f : function) : list function :=
  match f with
  | f_main =>
      [f_Circle_Circle; f_Rectangle_Rectangle; f_printShapeDetails;
       f_Circle_area; f_Rectangle_area]
  | f_printShapeDetails =>
      [f_Circle_getName; f_Rectangle_getName;
       f_Circle_area; f_Rectangle_area;
       f_Circle_perimeter; f_Rectangle_perimeter;
       f_Circle_getDescription; f_Rectangle_getDescription]
  | f_Circle_Circle => [f_Circle_validateRadius]
  | f_Circle_setRadius => [f_Circle_validateRadius]
  | _ => []
  end.

(** [reaches f g]: a chain of calls leads from [f] to [g]. *)
Inductive reaches : function -> function -> Prop :=
| reaches_here (f : function) : reaches f f
| reaches_call (f g h : function) :
    In g (callees f) -> reaches g h -> reaches f h.

(** A set of functions that holds [main] and is closed under calls: the
    functions a run of [main] can enter. *)
Definition on_report_path (f : function) : bool :=
  match f with
  | f_main | f_printShapeDetails
  | f_Circle_Circle | f_Circle_validateRadius
  | f_Circle_area | f_Circle_perimeter
  | f_Circle_getName | f_Circle_getDescription
  | f_Rectangle_Rectangle
  | f_Rectangle_area | f_Rectangle_perimeter
  | f_Rectangle_getName | f_Rectangle_getDescription => true
  | _ => false
  end.

(** ** Reading a [double] exactly

    A finite binary64 value is [m * 2^e] for integers [m] and [e];
    comparing it with a decimal fraction is then integer arithmetic. *)

(** [within x lo hi k]: [lo / 10^k <= x <= hi / 10^k], for a finite
    non-negative [x]; [false] for any other [x]. *)
Definition within (x : float) (lo hi : Z) (k : Z) : bool :=
  match Prim2SF x with
  | S754_zero _ => (lo <=? 0)%Z && (0 <=? hi)%Z
  | S754_finite false m e =>
      let num := (Z.pos m * 10 ^ k * 2 ^ Z.max e 0)%Z in
      let den := (2 ^ Z.max (- e) 0)%Z in
      (lo * den <=? num)%Z && (num <=? hi * den)%Z
  | _ => false
  end.

(** [std::isnan]. *)
Definition isnan (x : float) : bool :=
  match Prim2SF x with
  | S754_nan => true
  | _ => false
  end.

(** The one exception [validateRadius] throws. *)
Definition radius_error : exception :=
  invalid_argument "Radius must be positive".

(** The calls of a series that hand [setRadius] a NaN. *)
Definition sets_nan (c : circle_call) : bool :=
  match c with
  | c_setRadius radius => isnan radius
  | _ => false
  end.

(** The formulas of [Circle] written with the helpers of [MathUtils], to
    be compared with [Circle.area] and [Circle.perimeter]. *)
Definition area_by_MathUtils (r : float) : float :=
  (MathUtils.PI * MathUtils.square r)%float.

Definition perimeter_by_MathUtils (r : float) : float :=
  (2 * MathUtils.PI * r)%float.

(** ** The report, as the specification describes it

    "Per shape, four lines (name, area, perimeter, description) followed
    by a blank line, then a final line with the total area"; the banner
    comes first.  These are compared with what [main] writes. *)
Definition banner : list token :=
  [Str "Shape Calculator v1.0"; Endl; Str "====================="; Endl; Endl].

Definition shape_lines (name : string) (a p : float) (description : string)
  : list token :=
  [Str "Shape: "; Str name; Endl;
   Str "  Area: "; Dbl a; Endl;
   Str "  Perimeter: "; Dbl p; Endl;
   Str "  Description: "; Str description; Endl;
   Endl].

Definition total_line (total : float) : list token :=
  [Str "Total area of all shapes: "; Dbl total; Endl].

Definition details (shape : unique_ptr_Shape) : list token :=
  shape_lines (ptr_getName shape) (ptr_area shape) (ptr_perimeter shape)
              (ptr_getDescription shape).

Definition sum_of_areas (shapes : list unique_ptr_Shape) : float :=
  fold_left (fun total shape => (total + ptr_area shape)%float)
            shapes 0%float.

Definition report (shapes : list unique_ptr_Shape) : list token :=
  banner ++ flat_map details shapes ++ total_line (sum_of_areas shapes).

(** The streams after a run that was aborted by the exception [e]. *)
Definition aborted (e : exception) : streams :=
  {| cout := banner; cerr := [Str "Error: "; Str (what e); Endl] |}.

(** Whether a total-area line is among what was written. *)
Definition has_total_line (out : list token) : Prop :=
  In (Str "Total area of all shapes: ") out.

(** ** Notions used by the further properties *)

(** The radius a member call stores, if it stores one: only [setRadius]
    assigns, and only past the guard. *)
Definition committed (c : circle_call) : option float :=
  match c with
  | c_setRadius radius =>
      if (radius <=? 0)%float then None else Some radius
  | _ => None
  end.

(** The last radius a series of calls stores, if any. *)
Fixpoint last_committed (calls : list circle_call) : option float :=
  match calls with
  | [] => None
  | c :: rest =>
      match last_committed rest with
      | Some v => Some v
      | None => committed c
      end
  end.

(** [signed s x]: [x] is a zero, a finite number or an infinity of sign
    bit [s]; a NaN has no sign. *)
Definition signed (s : bool) (x : spec_float) : Prop :=
  match x with
  | S754_nan => False
  | S754_zero s' | S754_infinity s' | S754_finite s' _ _ => s' = s
  end.

(** A stream format to run examples with.  No property depends on the
    text it gives. *)
Definition plain_format : StreamFormat :=
  {| show_double := fun _ => "?"%string |}.

(** * Properties *)

(** ** Comparisons of a [double] with zero *)

Section DoubleOrder.
Local Open Scope float_scope.

Lemma zero_repr : Prim2SF 0 = S754_zero false.
Proof. reflexivity. Qed.

(** In C++ terms: [r > 0] excludes [r <= 0]. *)
Lemma positive_not_le_zero (r : float) :
  (0 <? r) = true -> (r <=? 0) = false.
Proof.
  rewrite ltb_spec, leb_spec, zero_repr.
  destruct (Prim2SF r) as [s | s | | s m e]; try destruct s;
    cbn; congruence.
Qed.

Lemma le_zero_not_positive (r : float) :
  (r <=? 0) = true -> (0 <? r) = false.
Proof.
  intros Hle. destruct (0 <? r) eqn:Hlt; [|reflexivity].
  apply positive_not_le_zero in Hlt. congruence.
Qed.

(** Every [double] is at most zero, above zero, or a NaN; the three
    cases exclude each other. *)
Lemma double_sign_cases (r : float) :
  ((r <=? 0) = true /\ (0 <? r) = false /\ isnan r = false) \/
  ((r <=? 0) = false /\ (0 <? r) = true /\ isnan r = false) \/
  ((r <=? 0) = false /\ (0 <? r) = false /\ isnan r = true).
Proof.
  unfold isnan. rewrite ltb_spec, leb_spec, zero_repr.
  destruct (Prim2SF r) as [s | s | | s m e]; try destruct s;
    cbn; auto.
Qed.

End DoubleOrder.

(** ** Circle *)

Section CircleFacts.
Local Open Scope float_scope.

Lemma validateRadius_rejects (r : float) :
  (r <=? 0) = true -> Circle.validateRadius r = Throws radius_error.
Proof. intros H. unfold Circle.validateRadius. rewrite H. reflexivity. Qed.

Lemma validateRadius_accepts (r : float) :
  (r <=? 0) = false -> Circle.validateRadius r = Returns tt.
Proof. intros H. unfold Circle.validateRadius. rewrite H. reflexivity. Qed.

Lemma Circle_rejects (r : float) :
  (r <=? 0) = true -> Circle.Circle r = Throws radius_error.
Proof.
  intros H. unfold Circle.Circle. rewrite (validateRadius_rejects r H).
  reflexivity.
Qed.

Lemma Circle_accepts (r : float) :
  (r <=? 0) = false -> Circle.Circle r = Returns {| Circle.radius_ := r |}.
Proof.
  intros H. unfold Circle.Circle. rewrite (validateRadius_accepts r H).
  reflexivity.
Qed.

(** A constructed circle holds the argument, and the argument passed the
    guard. *)
Lemma Circle_inv (r : float) (c : Circle.t) :
  Circle.Circle r = Returns c ->
  c = {| Circle.radius_ := r |} /\ (r <=? 0) = false.
Proof.
  destruct (r <=? 0) eqn:Hr.
  - rewrite (Circle_rejects r Hr). discriminate.
  - rewrite (Circle_accepts r Hr). intros [= <-]. auto.
Qed.

Lemma setRadius_rejects (v : float) (this : Circle.t) :
  (v <=? 0) = true -> Circle.setRadius v this = (Throws radius_error, this).
Proof.
  intros H. unfold Circle.setRadius, lift. cbn.
  rewrite (validateRadius_rejects v H). reflexivity.
Qed.

Lemma setRadius_accepts (v : float) (this : Circle.t) :
  (v <=? 0) = false ->
  Circle.setRadius v this = (Returns tt, {| Circle.radius_ := v |}).
Proof.
  intros H. unfold Circle.setRadius, lift. cbn.
  rewrite (validateRadius_accepts v H). reflexivity.
Qed.

(** C1. A radius [<= 0] (zero and negative zero included) makes the
    constructor throw [std::invalid_argument], so that no [Circle] is
    returned; a radius [> 0] makes it return the circle of that radius. *)
Theorem Circle_construction (radius : float) :
  ((radius <=? 0) = true ->
     Circle.Circle radius = Throws (invalid_argument "Radius must be positive")
     /\ forall c, Circle.Circle radius <> Returns c) /\
  ((0 <? radius) = true ->
     Circle.Circle radius = Returns {| Circle.radius_ := radius |}).
Proof.
  split.
  - intros H. rewrite (Circle_rejects radius H). split; [reflexivity|].
    intros c. discriminate.
  - intros H. apply Circle_accepts, positive_not_le_zero, H.
Qed.

Lemma Circle_construction_witness :
  (Circle.Circle (-1) = Throws (invalid_argument "Radius must be positive")
   /\ forall c, Circle.Circle (-1) <> Returns c) /\
  (Circle.Circle 0 = Throws (invalid_argument "Radius must be positive")
   /\ forall c, Circle.Circle 0 <> Returns c) /\
  Circle.Circle 5 = Returns {| Circle.radius_ := 5 |}.
Proof.
  split; [|split].
  - apply (proj1 (Circle_construction (-1))). reflexivity.
  - apply (proj1 (Circle_construction 0)). reflexivity.
  - apply (proj2 (Circle_construction 5)). reflexivity.
Defined.

(** C2. For a radius [r > 0] the constructor returns a circle whose
    [area()] is [PI * r * r] (the product [PI * r^2], multiplied from the
    left as the code writes it), whose [perimeter()] is [2 * PI * r] and
    whose [getDiameter()] is [2 * r]. *)
Theorem Circle_measures (r : float) :
  (0 <? r) = true ->
  exists c : Circle.t,
    Circle.Circle r = Returns c /\
    Circle.area c = Circle.PI * r * r /\
    Circle.perimeter c = 2 * Circle.PI * r /\
    Circle.getDiameter c = 2 * r.
Proof.
  intros H. exists {| Circle.radius_ := r |}.
  split; [apply Circle_accepts, positive_not_le_zero, H|].
  repeat split.
Qed.

Lemma Circle_measures_witness :
  exists c : Circle.t,
    Circle.Circle 5 = Returns c /\
    Circle.area c = Circle.PI * 5 * 5 /\
    Circle.perimeter c = 2 * Circle.PI * 5 /\
    Circle.getDiameter c = 2 * 5.
Proof. apply (Circle_measures 5). reflexivity. Defined.

(** C4. On a circle whose radius is [r0 > 0], [setRadius(v)] with
    [v <= 0] throws [std::invalid_argument] and the radius is still [r0];
    with [v > 0] it returns and the radius is [v]. *)
Theorem setRadius_validates (r0 v : float) (this : Circle.t) :
  (0 <? r0) = true ->
  Circle.getRadius this = r0 ->
  ((v <=? 0) = true ->
     fst (Circle.setRadius v this)
       = Throws (invalid_argument "Radius must be positive") /\
     snd (Circle.setRadius v this) = this /\
     Circle.getRadius (snd (Circle.setRadius v this)) = r0) /\
  ((0 <? v) = true ->
     fst (Circle.setRadius v this) = Returns tt /\
     Circle.getRadius (snd (Circle.setRadius v this)) = v).
Proof.
  intros _ Hr0. split; intros Hv.
  - rewrite (setRadius_rejects v this Hv). cbn. auto.
  - rewrite (setRadius_accepts v this (positive_not_le_zero v Hv)). cbn. auto.
Qed.

Lemma setRadius_validates_witness :
  (fst (Circle.setRadius (-1) {| Circle.radius_ := 5 |})
     = Throws (invalid_argument "Radius must be positive") /\
   snd (Circle.setRadius (-1) {| Circle.radius_ := 5 |})
     = {| Circle.radius_ := 5 |} /\
   Circle.getRadius (snd (Circle.setRadius (-1) {| Circle.radius_ := 5 |}))
     = 5) /\
  (fst (Circle.setRadius 3 {| Circle.radius_ := 5 |}) = Returns tt /\
   Circle.getRadius (snd (Circle.setRadius 3 {| Circle.radius_ := 5 |})) = 3).
Proof.
  split.
  - apply (proj1 (setRadius_validates 5 (-1) {| Circle.radius_ := 5 |}
                    eq_refl eq_refl)).
    reflexivity.
  - apply (proj2 (setRadius_validates 5 3 {| Circle.radius_ := 5 |}
                    eq_refl eq_refl)).
    reflexivity.
Defined.

(** *** The radius over the object's lifetime *)

Section Lifetime.
Context `{StreamFormat}.

Lemma ask_keeps_object {T : Type} `{Shape T} (q : query) (this : T) :
  snd (ask q this) = this.
Proof. destruct q; reflexivity. Qed.

(** A call leaves the radius as it was or sets it to its argument, and
    the latter only when the argument passed the guard. *)
Lemma invoke_radius (c : circle_call) (this : Circle.t) :
  snd (invoke c this) = this \/
  exists v, c = c_setRadius v /\ (v <=? 0) = false /\
            snd (invoke c this) = {| Circle.radius_ := v |}.
Proof.
  destruct c as [q | | v |]; try (left; reflexivity).
  - left. apply ask_keeps_object.
  - destruct (v <=? 0) eqn:Hv.
    + left. unfold invoke, bind, Monad_M.
      rewrite (setRadius_rejects v this Hv). reflexivity.
    + right. exists v. unfold invoke, bind, Monad_M.
      rewrite (setRadius_accepts v this Hv). auto.
Qed.

(** What the guard does maintain: the radius is never [<= 0]. *)
Lemma lifetime_guard (calls : list circle_call) (this : Circle.t) :
  (Circle.radius_ this <=? 0) = false ->
  (Circle.radius_ (lifetime calls this) <=? 0) = false.
Proof.
  revert this. induction calls as [| c calls IH]; intros this Hthis.
  - exact Hthis.
  - cbn. apply IH.
    destruct (invoke_radius c this) as [-> | (v & _ & Hv & ->)]; assumption.
Qed.

(** The radius is positive throughout when no NaN is ever passed in. *)
Lemma lifetime_positive (r : float) (c : Circle.t)
  (calls : list circle_call) :
  isnan r = false ->
  forallb (fun c => negb (sets_nan c)) calls = true ->
  Circle.Circle r = Returns c ->
  (0 <? Circle.radius_ (lifetime calls c)) = true.
Proof.
  intros Hr Hcalls Hc. apply Circle_inv in Hc as [-> Hguard].
  assert (Hgen : forall this,
            (Circle.radius_ this <=? 0) = false ->
            isnan (Circle.radius_ this) = false ->
            (0 <? Circle.radius_ (lifetime calls this)) = true).
  { clear Hguard Hr. induction calls as [| c calls IH]; intros this Hle Hnan.
    - cbn. destruct (double_sign_cases (Circle.radius_ this))
        as [(A & _) | [(_ & A & _) | (_ & _ & A)]]; congruence.
    - cbn in Hcalls. apply andb_true_iff in Hcalls as [Hc Hrest].
      cbn. destruct (invoke_radius c this) as [-> | (v & -> & Hv & ->)].
      + apply IH; assumption.
      + apply IH; [assumption | exact Hv |].
        change (isnan v = false). cbn in Hc.
        destruct (isnan v); [discriminate | reflexivity]. }
  apply Hgen; assumption.
Qed.

End Lifetime.

(** C5. The invariant [radius > 0] does not hold of every circle: the
    guard [r <= 0] is false of a NaN, so [Circle(NaN)] is constructed, and
    [setRadius(NaN)] is committed on a circle of radius 1; in both the
    stored radius is not [> 0]. *)
Theorem Circle_nan_radius :
  Circle.Circle nan = Returns {| Circle.radius_ := nan |} /\
  (0 <? Circle.getRadius {| Circle.radius_ := nan |}) = false /\
  Circle.Circle 1 = Returns {| Circle.radius_ := 1 |} /\
  Circle.setRadius nan {| Circle.radius_ := 1 |}
    = (Returns tt, {| Circle.radius_ := nan |}).
Proof. repeat split. Qed.

End CircleFacts.

(** ** Rectangle *)

Section RectangleFacts.
Local Open Scope float_scope.

(** C3. Whatever the width and the height, the constructor returns a
    rectangle; its [area()] is [width * height] and its [perimeter()] is
    [2 * (width + height)]. *)
Theorem Rectangle_measures (width height : float) :
  exists rect : Rectangle.t,
    Rectangle.Rectangle width height = Returns rect /\
    Rectangle.area rect = width * height /\
    Rectangle.perimeter rect = 2 * (width + height).
Proof.
  exists {| Rectangle.width_ := width; Rectangle.height_ := height |}.
  repeat split.
Qed.

End RectangleFacts.

(** ** The Shape interface *)

Section ShapeFacts.
Context {T : Type} `{Shape T}.

Lemma ask_returns (q : query) (this : T) :
  exists r : reply, ask q this = (Returns r, this).
Proof. destruct q; eexists; reflexivity. Qed.

End ShapeFacts.

(** ** The interface members, as they run *)

Section MemberFacts.
Context `{StreamFormat} `{RectangleWording}.

(** Each override of [Circle] returns, in any world, what the function of
    the object gives, and leaves the object and both streams as they
    were. *)
Lemma Circle_member_run (q : query) (w : world Circle.t) :
  Circle_member q w = (Returns (reply_of q (self w)), w).
Proof. destruct q; reflexivity. Qed.

Lemma Rectangle_member_run (q : query) (w : world Rectangle.t) :
  Rectangle_member q w = (Returns (reply_of q (self w)), w).
Proof. destruct q; reflexivity. Qed.

(** Members that each return a function of the object and leave the
    world alone do so in series as well. *)
Lemma call_all_run {T : Type} (member : query -> M (world T) reply)
  (f : query -> T -> reply) :
  (forall q w, member q w = (Returns (f q (self w)), w)) ->
  forall qs w,
    call_all member qs w = (Returns (map (fun q => f q (self w)) qs), w).
Proof.
  intros Hm qs. induction qs as [| q qs IH]; intros w; [reflexivity|].
  cbn [call_all map]. unfold bind, Monad_M.
  rewrite Hm, IH. reflexivity.
Qed.

(** A [setRadius] between two calls does show: the model tells a
    mutating member from one that only reads. *)
Lemma setRadius_shows (out : streams) :
  self (snd (CircleBody.setRadius 3
               {| self := {| Circle.radius_ := 5 |}; stdio := out |}))
  <> {| Circle.radius_ := 5 |}.
Proof.
  cbn. intros Heq. apply (f_equal Circle.getRadius) in Heq.
  apply (f_equal Prim2SF) in Heq. vm_compute in Heq. discriminate.
Qed.

(** C8. On a shape that is not mutated in between, a circle or a
    rectangle, any series of calls of [area()], [perimeter()],
    [getName()] and [getDescription()] returns without an exception, each
    call with the value that depends on the object alone, and leaves the
    object, [std::cout] and [std::cerr] as they were; in particular one
    member called [n] times in a row returns the same value [n] times. *)
Theorem shape_members_read_only (qs : list query) (q : query) (n : nat)
  (c : world Circle.t) (r : world Rectangle.t) :
  call_all Circle_member qs c
    = (Returns (map (fun q => reply_of q (self c)) qs), c) /\
  call_all Circle_member (repeat q n) c
    = (Returns (repeat (reply_of q (self c)) n), c) /\
  call_all Rectangle_member qs r
    = (Returns (map (fun q => reply_of q (self r)) qs), r) /\
  call_all Rectangle_member (repeat q n) r
    = (Returns (repeat (reply_of q (self r)) n), r).
Proof.
  pose proof (call_all_run Circle_member reply_of Circle_member_run)
    as Hcircle.
  pose proof (call_all_run Rectangle_member reply_of Rectangle_member_run)
    as Hrectangle.
  split; [| split; [| split]].
  - apply Hcircle.
  - rewrite Hcircle, map_repeat. reflexivity.
  - apply Hrectangle.
  - rewrite Hrectangle, map_repeat. reflexivity.
Qed.

End MemberFacts.

(** ** MathUtils *)

Section MathUtilsFacts.
Local Open Scope float_scope.

Lemma callees_on_report_path (f g : function) :
  on_report_path f = true -> In g (callees f) -> on_report_path g = true.
Proof.
  destruct f; cbn; intros Hf Hg; try discriminate; try contradiction;
    repeat (destruct Hg as [<- | Hg]; [reflexivity|]); contradiction.
Qed.

Lemma reaches_on_report_path (f g : function) :
  reaches f g -> on_report_path f = true -> on_report_path g = true.
Proof.
  induction 1 as [f | f g h Hcall _ IH]; intros Hf; [exact Hf|].
  apply IH. exact (callees_on_report_path f g Hf Hcall).
Qed.

(** C9. [square(x)] is [x * x] and [cube(x)] is [x * x * x]; [PI] and [E]
    are the binary64 values nearest to the two literals, which agree with
    pi and e to fourteen decimals; no chain of calls leads from [main] to
    either helper. *)
Theorem MathUtils_helpers :
  (forall x, MathUtils.square x = x * x) /\
  (forall x, MathUtils.cube x = x * x * x) /\
  Prim2SF MathUtils.PI = S754_finite false 7074237752028440 (-51) /\
  within MathUtils.PI 314159265358979 314159265358980 14 = true /\
  Prim2SF MathUtils.E = S754_finite false 6121026514868073 (-51) /\
  within MathUtils.E 271828182845904 271828182845905 14 = true /\
  ~ reaches f_main f_MathUtils_square /\
  ~ reaches f_main f_MathUtils_cube.
Proof.
  repeat split; try reflexivity.
  - intros Hr. apply reaches_on_report_path in Hr; [discriminate | reflexivity].
  - intros Hr. apply reaches_on_report_path in Hr; [discriminate | reflexivity].
Qed.

Lemma double_neq (x y : float) : Prim2SF x <> Prim2SF y -> x <> y.
Proof. intros Hne ->. apply Hne. reflexivity. Qed.

(** C10, as stated, fails: at radius 11 the code's [PI * 11 * 11] rounds
    to [380.13271108436493] while [PI * square(11)] rounds to
    [380.13271108436498]. *)
Lemma Circle_area_differs_from_PI_square :
  (0 <? 11) = true /\
  Circle.Circle 11 = Returns {| Circle.radius_ := 11 |} /\
  Circle.area {| Circle.radius_ := 11 |} = 380.13271108436493 /\
  area_by_MathUtils 11 = 380.13271108436498 /\
  Circle.area {| Circle.radius_ := 11 |} <> area_by_MathUtils 11.
Proof.
  repeat split. apply double_neq. vm_compute. discriminate.
Qed.

(** C10, amended. [Circle::PI] is the same binary64 value as
    [MathUtils::PI], and for a radius [r > 0] the area of the constructed
    circle is [MathUtils::PI * r * r], multiplied from the left, and its
    perimeter is [2 * MathUtils::PI * r]. *)
Theorem Circle_agrees_with_MathUtils (r : float) :
  (0 <? r) = true ->
  Circle.PI = MathUtils.PI /\
  exists c : Circle.t,
    Circle.Circle r = Returns c /\
    Circle.area c = MathUtils.PI * r * r /\
    Circle.perimeter c = perimeter_by_MathUtils r.
Proof.
  intros Hr. split; [reflexivity|].
  exists {| Circle.radius_ := r |}.
  split; [apply Circle_accepts, positive_not_le_zero, Hr|].
  split; reflexivity.
Qed.

Lemma Circle_agrees_with_MathUtils_witness :
  Circle.PI = MathUtils.PI /\
  exists c : Circle.t,
    Circle.Circle 11 = Returns c /\
    Circle.area c = MathUtils.PI * 11 * 11 /\
    Circle.perimeter c = perimeter_by_MathUtils 11.
Proof. apply (Circle_agrees_with_MathUtils 11). reflexivity. Defined.

End MathUtilsFacts.

(** ** The driver *)

Section DriverFacts.
Context `{StreamFormat} `{RectangleWording}.

(** One run of the driver, by the outcome of each constructor. *)
Lemma main_with_run (r1 w h r2 : float) :
  main_with r1 w h r2 no_output =
  match Circle.Circle r1 with
  | Throws e => (Returns 1%Z, aborted e)
  | Returns c1 =>
      match Rectangle.Rectangle w h with
      | Throws e => (Returns 1%Z, aborted e)
      | Returns r =>
          match Circle.Circle r2 with
          | Throws e => (Returns 1%Z, aborted e)
          | Returns c2 =>
              (Returns 0%Z,
               {| cout := report [make_unique c1; make_unique r;
                                  make_unique c2];
                  cerr := [] |})
          end
      end
  end.
Proof.
  unfold main_with, catch, Exc_M, bind, Monad_M, lift.
  destruct (Circle.Circle r1) as [c1 | e1]; [| reflexivity].
  cbn [ret Monad_outcome Rectangle.Rectangle].
  destruct (Circle.Circle r2) as [c2 | e2]; reflexivity.
Qed.

Lemma banner_has_no_total_line : ~ has_total_line banner.
Proof.
  unfold has_total_line, banner. cbn.
  intros [A | [A | [A | [A | [A | []]]]]]; discriminate.
Qed.

Lemma report_has_total_line (shapes : list unique_ptr_Shape) :
  has_total_line (report shapes).
Proof.
  unfold has_total_line, report, total_line.
  apply in_or_app. right. apply in_or_app. right. left. reflexivity.
Qed.

(** C6. A run of the driver on the radii, width and height
    [r1], [w], [h], [r2]: when the three constructors return, [main]
    returns 0, nothing goes to [std::cerr] and the total-area line is
    written; when one of them throws, [main] returns 1, [std::cerr]
    receives ["Error: "] and the exception's message, and [std::cout]
    holds the banner only, hence no total-area line.  The demonstration
    itself returns 0. *)
Theorem driver_exit_status (r1 w h r2 : float) (argc : Z)
  (argv : list string) :
  fst (main argc argv no_output) = Returns 0%Z /\
  let run := main_with r1 w h r2 no_output in
  match Circle.Circle r1, Rectangle.Rectangle w h, Circle.Circle r2 with
  | Returns _, Returns _, Returns _ =>
      fst run = Returns 0%Z /\
      cerr (snd run) = [] /\
      has_total_line (cout (snd run))
  | Throws e, _, _
  | Returns _, Throws e, _
  | Returns _, Returns _, Throws e =>
      fst run = Returns 1%Z /\
      cerr (snd run) = [Str "Error: "; Str (what e); Endl] /\
      cout (snd run) = banner /\
      ~ has_total_line (cout (snd run))
  end.
Proof.
  split; [reflexivity|].
  cbv zeta. rewrite main_with_run.
  destruct (Circle.Circle r1) as [c1 | e1];
    [destruct (Rectangle.Rectangle w h) as [r | e];
       [destruct (Circle.Circle r2) as [c2 | e2] |] |];
    cbn [fst snd cout cerr aborted];
    repeat split;
    try apply banner_has_no_total_line; apply report_has_total_line.
Qed.

(** The second scenario of the specification: a first radius of [-1]. *)
Lemma driver_rejects_negative_radius :
  main_with (-1) 4 6 3 no_output = (Returns 1%Z, aborted radius_error).
Proof. reflexivity. Qed.

(** C7. The demonstration constructs Circle(5.0), Rectangle(4.0, 6.0)
    and Circle(3.0); [main] returns 0 and writes the banner, the three
    shapes in that order with their areas and perimeters, and the total.
    The areas are 78.5398, 24 and 28.2743 and the total is 130.8142, each
    to within half a unit of its last decimal. *)
Theorem demonstration_run (argc : Z) (argv : list string) :
  let c1 := {| Circle.radius_ := 5 |} in
  let r := {| Rectangle.width_ := 4; Rectangle.height_ := 6 |} in
  let c2 := {| Circle.radius_ := 3 |} in
  main argc argv no_output =
    (Returns 0%Z,
     {| cout :=
          banner
          ++ shape_lines "Circle" 78.539816339744831 31.415926535897931
                         (Circle.getDescription c1)
          ++ shape_lines "Rectangle" 24 20 (Rectangle.getDescription r)
          ++ shape_lines "Circle" 28.274333882308138 18.849555921538759
                         (Circle.getDescription c2)
          ++ total_line 130.81415022205297;
        cerr := [] |}) /\
  Circle.area c1 = 78.539816339744831%float /\
  within 78.539816339744831 7853975 7853985 5 = true /\
  Rectangle.area r = 24%float /\
  Circle.area c2 = 28.274333882308138%float /\
  within 28.274333882308138 2827425 2827435 5 = true /\
  sum_of_areas [make_unique c1; make_unique r; make_unique c2]
    = 130.81415022205297%float /\
  within 130.81415022205297 13081415 13081425 5 = true.
Proof. cbv zeta. repeat split. Qed.

End DriverFacts.

(** * Further properties *)

(** ** Signs of binary64 products *)

Section Signs.
Local Open Scope Z_scope.

Lemma shr_1_nonneg (mrs : shr_record) :
  0 <= shr_m mrs -> 0 <= shr_m (shr_1 mrs).
Proof.
  destruct mrs as [m r s]. destruct m as [| p | p]; cbn; try lia;
    destruct p; cbn; lia.
Qed.

Lemma iter_shr_1_nonneg (p : positive) :
  forall mrs, 0 <= shr_m mrs -> 0 <= shr_m (iter_pos shr_1 p mrs).
Proof.
  induction p as [p IH | p IH |]; intros mrs Hm; cbn.
  - apply IH, IH, shr_1_nonneg, Hm.
  - apply IH, IH, Hm.
  - apply shr_1_nonneg, Hm.
Qed.

Lemma shr_fexp_nonneg (m e : Z) (l : location) :
  0 <= m -> 0 <= shr_m (fst (shr_fexp prec emax m e l)).
Proof.
  intros Hm. unfold shr_fexp, shr.
  assert (H0 : 0 <= shr_m (shr_record_of_loc m l))
    by (destruct l as [| []]; exact Hm).
  destruct (fexp prec emax (Zdigits2 m + e) - e); cbn [fst];
    [exact H0 | apply iter_shr_1_nonneg, H0 | exact H0].
Qed.

Lemma round_nearest_even_nonneg (m : Z) (l : location) :
  0 <= m -> 0 <= round_nearest_even m l.
Proof.
  intros Hm. destruct l as [| []]; cbn; try destruct (Z.even m); lia.
Qed.

(** Rounding a non-negative mantissa never yields a NaN, and the sign
    bit is the one passed in. *)
Lemma binary_round_aux_signed (s : bool) (m e : Z) (l : location) :
  0 <= m -> signed s (binary_round_aux prec emax s m e l).
Proof.
  intros Hm. unfold binary_round_aux.
  pose proof (shr_fexp_nonneg m e l Hm) as H1.
  destruct (shr_fexp prec emax m e l) as [mrs1 e1]. cbn [fst] in H1.
  pose proof (shr_fexp_nonneg _ e1 loc_Exact
                (round_nearest_even_nonneg _ (loc_of_shr_record mrs1) H1))
    as H2.
  destruct (shr_fexp prec emax
              (round_nearest_even (shr_m mrs1) (loc_of_shr_record mrs1))
              e1 loc_Exact) as [mrs2 e2].
  cbn [fst] in H2.
  destruct (shr_m mrs2) as [| q | q]; [reflexivity | | lia].
  destruct (e2 <=? emax - prec); reflexivity.
Qed.

(** Rounding commutes with a change of sign. *)
Lemma binary_round_aux_opp (s : bool) (m e : Z) (l : location) :
  binary_round_aux prec emax (negb s) m e l
  = SFopp (binary_round_aux prec emax s m e l).
Proof.
  unfold binary_round_aux.
  destruct (shr_fexp prec emax m e l) as [mrs1 e1].
  destruct (shr_fexp prec emax _ e1 loc_Exact) as [mrs2 e2].
  destruct (shr_m mrs2); [reflexivity | | reflexivity].
  destruct (e2 <=? emax - prec); reflexivity.
Qed.

Lemma SF64mul_finite_signed (sx sy : bool) (mx my : positive) (ex ey : Z) :
  signed (xorb sx sy)
         (SF64mul (S754_finite sx mx ex) (S754_finite sy my ey)).
Proof. apply binary_round_aux_signed. lia. Qed.

(** A signed value times a finite positive one keeps its sign. *)
Lemma SF64mul_signed_finite (s : bool) (x : spec_float) (m : positive)
  (e : Z) :
  signed s x -> signed s (SF64mul x (S754_finite false m e)).
Proof.
  destruct x as [s' | s' | | s' mx ex]; cbn [signed]; intros Hs;
    try contradiction; subst s'.
  - cbn. apply xorb_false_r.
  - cbn. apply xorb_false_r.
  - rewrite <- (xorb_false_r s) at 1. apply SF64mul_finite_signed.
Qed.

Lemma SF64mul_opp_opp (x : spec_float) :
  SF64mul (SFopp x) (SFopp x) = SF64mul x x.
Proof. destruct x as [[] | [] | | [] m e]; reflexivity. Qed.

Lemma SF64mul_opp_r (x y : spec_float) :
  SF64mul x (SFopp y) = SFopp (SF64mul x y).
Proof.
  destruct x as [sx | sx | | sx mx ex], y as [sy | sy | | sy my ey];
    cbn; try reflexivity; try (rewrite <- negb_xorb_r; reflexivity).
  unfold SF64mul, SFmul. rewrite <- negb_xorb_r.
  apply binary_round_aux_opp.
Qed.

Lemma signed_false_nonneg (x : spec_float) :
  signed false x -> SFleb (S754_zero false) x = true.
Proof.
  destruct x as [s | s | | s m e]; cbn; intros Hs;
    try contradiction; subst; reflexivity.
Qed.

End Signs.

(** ** Circle: which radii are accepted *)

Section CircleAcceptance.
Local Open Scope float_scope.

(** X1. The constructor returns a circle exactly for the radii that are
    [> 0] or NaN (so also for [+infinity]) and throws exactly for those
    that are [<= 0] (so also for [-0.0] and [-infinity]); the circle it
    returns reports the radius it was given. *)
Theorem Circle_accepted_iff (r : float) :
  ((exists c, Circle.Circle r = Returns c) <->
     (0 <? r) = true \/ isnan r = true) /\
  (Circle.Circle r = Throws (invalid_argument "Radius must be positive") <->
     (r <=? 0) = true) /\
  (forall c, Circle.Circle r = Returns c -> Circle.getRadius c = r).
Proof.
  split; [| split].
  - split.
    + intros [c Hc]. apply Circle_inv in Hc as [_ Hle].
      destruct (double_sign_cases r)
        as [(A & _) | [(_ & A & _) | (_ & _ & A)]]; [congruence | auto | auto].
    + intros Hr. exists {| Circle.radius_ := r |}. apply Circle_accepts.
      destruct (double_sign_cases r)
        as [(_ & A & B) | [(A & _) | (A & _)]]; try exact A.
      destruct Hr; congruence.
  - split.
    + intros Hthrow. destruct (r <=? 0) eqn:Hle; [reflexivity|].
      rewrite (Circle_accepts r Hle) in Hthrow. discriminate.
    + apply Circle_rejects.
  - intros c Hc. apply Circle_inv in Hc as [-> _]. reflexivity.
Qed.

End CircleAcceptance.

(** ** Circle: the object over a series of calls *)

Section CircleCalls.
Context `{StreamFormat}.
Local Open Scope float_scope.

(** X2. Whatever members are called on a constructed circle, and in
    whatever order, its radius is never [<= 0]. *)
Theorem Circle_radius_never_le_zero (r : float) (c : Circle.t)
  (calls : list circle_call) :
  Circle.Circle r = Returns c ->
  (Circle.getRadius (lifetime calls c) <=? 0) = false.
Proof.
  intros Hc. apply Circle_inv in Hc as [-> Hle].
  apply lifetime_guard. exact Hle.
Qed.

(** X3. When neither the constructor nor any [setRadius] is handed a
    NaN, the radius of a constructed circle is [> 0] after every series of
    member calls. *)
Theorem Circle_radius_stays_positive (r : float) (c : Circle.t)
  (calls : list circle_call) :
  isnan r = false ->
  forallb (fun call => negb (sets_nan call)) calls = true ->
  Circle.Circle r = Returns c ->
  (0 <? Circle.getRadius (lifetime calls c)) = true.
Proof. apply lifetime_positive. Qed.

Lemma invoke_shape_returns (q : query) (this : Circle.t) :
  exists x, invoke (c_shape q) this = (Returns x, this).
Proof. apply ask_returns. Qed.

(** X4. A member call that throws leaves the circle exactly as it was;
    the call is then a [setRadius] with an argument [<= 0] and the
    exception is [std::invalid_argument("Radius must be positive")].  No
    other member throws. *)
Theorem member_call_exception_safe (call : circle_call)
  (this this' : Circle.t) (e : exception) :
  invoke call this = (Throws e, this') ->
  this' = this /\
  e = invalid_argument "Radius must be positive" /\
  exists v, call = c_setRadius v /\ (v <=? 0) = true.
Proof.
  destruct call as [q | | v |]; try discriminate.
  - destruct (invoke_shape_returns q this) as [x ->]. discriminate.
  - unfold invoke, bind, Monad_M. destruct (v <=? 0) eqn:Hv.
    + rewrite (setRadius_rejects v this Hv). intros [= <- <-]. eauto.
    + rewrite (setRadius_accepts v this Hv). discriminate.
Qed.

Lemma invoke_committed (call : circle_call) (this : Circle.t) :
  Circle.getRadius (snd (invoke call this))
  = match committed call with
    | Some v => v
    | None => Circle.getRadius this
    end.
Proof.
  destruct call as [q | | v |]; try reflexivity.
  - change (invoke (c_shape q) this) with (ask q this).
    rewrite ask_keeps_object. reflexivity.
  - unfold invoke, bind, Monad_M. cbn [committed].
    destruct (v <=? 0) eqn:Hv.
    + rewrite (setRadius_rejects v this Hv). reflexivity.
    + rewrite (setRadius_accepts v this Hv). reflexivity.
Qed.

(** X5. After a series of member calls the radius is the argument of the
    last [setRadius] that passed the guard, and the radius the series
    started with when there is none: reads, rejected writes and earlier
    writes leave no trace. *)
Theorem last_setRadius_wins (calls : list circle_call) (this : Circle.t) :
  Circle.getRadius (lifetime calls this)
  = match last_committed calls with
    | Some v => v
    | None => Circle.getRadius this
    end.
Proof.
  revert this. induction calls as [| call calls IH]; intros this;
    [reflexivity|].
  change (lifetime (call :: calls) this)
    with (lifetime calls (snd (invoke call this))).
  rewrite IH. cbn [last_committed].
  destruct (last_committed calls); [reflexivity|].
  apply invoke_committed.
Qed.

End CircleCalls.

Lemma Circle_radius_never_le_zero_witness :
  (Circle.getRadius
     (@lifetime plain_format
        [c_setRadius (-1); c_shape q_getDescription; c_setRadius 3]
        {| Circle.radius_ := 5 |}) <=? 0)%float = false.
Proof.
  apply (@Circle_radius_never_le_zero plain_format 5). reflexivity.
Defined.

Lemma Circle_radius_stays_positive_witness :
  (0 <? Circle.getRadius
          (@lifetime plain_format
             [c_setRadius (-1); c_shape q_area; c_setRadius 3]
             {| Circle.radius_ := 5 |}))%float = true.
Proof.
  apply (@Circle_radius_stays_positive plain_format 5); reflexivity.
Defined.

Lemma member_call_exception_safe_witness :
  {| Circle.radius_ := 5 |} = {| Circle.radius_ := 5 |} /\
  invalid_argument "Radius must be positive"
    = invalid_argument "Radius must be positive" /\
  exists v, c_setRadius (-1) = c_setRadius v /\ (v <=? 0)%float = true.
Proof.
  apply (@member_call_exception_safe plain_format (c_setRadius (-1))
           {| Circle.radius_ := 5 |}).
  reflexivity.
Defined.

(** ** Circle: the range of the measures *)

Section CircleRange.
Local Open Scope float_scope.

Lemma positive_repr (r : float) :
  (0 <? r) = true ->
  Prim2SF r = S754_infinity false \/
  exists m e, Prim2SF r = S754_finite false m e.
Proof.
  rewrite ltb_spec, zero_repr.
  destruct (Prim2SF r) as [s | s | | s m e]; try destruct s; cbn;
    try discriminate; eauto.
Qed.

Lemma Circle_PI_repr :
  Prim2SF Circle.PI = S754_finite false 7074237752028440 (-51).
Proof. reflexivity. Qed.

Lemma Circle_two_PI_repr :
  Prim2SF (2 * Circle.PI) = S754_finite false 7074237752028440 (-50).
Proof. reflexivity. Qed.

Lemma two_repr : Prim2SF 2 = S754_finite false 4503599627370496 (-51).
Proof. reflexivity. Qed.

(** A positive finite constant times a radius [> 0] is neither negative
    nor a NaN. *)
Lemma constant_times_positive (k r : float) (mk : positive) (ek : Z) :
  Prim2SF k = S754_finite false mk ek ->
  (0 <? r) = true ->
  signed false (Prim2SF (k * r)).
Proof.
  intros Hk Hr. rewrite mul_spec, Hk.
  destruct (positive_repr r Hr) as [-> | (m & e & ->)].
  - reflexivity.
  - apply (SF64mul_finite_signed false false).
Qed.

Lemma area_signed (r : float) :
  (0 <? r) = true ->
  signed false (Prim2SF (Circle.PI * r * r)).
Proof.
  intros Hr. rewrite (mul_spec (Circle.PI * r) r).
  pose proof (constant_times_positive _ r _ _ Circle_PI_repr Hr) as Hx.
  rewrite mul_spec, Circle_PI_repr in *.
  destruct (positive_repr r Hr) as [Hinf | (m & e & Hfin)].
  - rewrite Hinf. reflexivity.
  - rewrite Hfin in *. apply SF64mul_signed_finite, Hx.
Qed.

(** X6. For a radius [> 0] the area, the perimeter and the diameter of
    the constructed circle are [>= 0], hence no NaN.  Zero and infinity
    are both reached by the area: it underflows to [0] at radius
    [2^-600] and overflows to [+infinity] at radius [2^600]. *)
Theorem Circle_measures_range :
  (forall (r : float) (c : Circle.t),
     (0 <? r) = true ->
     Circle.Circle r = Returns c ->
     (0 <=? Circle.area c) = true /\
     (0 <=? Circle.perimeter c) = true /\
     (0 <=? Circle.getDiameter c) = true) /\
  (Circle.Circle 0x1p-600 = Returns {| Circle.radius_ := 0x1p-600 |} /\
   Circle.area {| Circle.radius_ := 0x1p-600 |} = 0) /\
  (Circle.Circle 0x1p600 = Returns {| Circle.radius_ := 0x1p600 |} /\
   Circle.area {| Circle.radius_ := 0x1p600 |} = infinity).
Proof.
  split; [| repeat split].
  intros r c Hr Hc. apply Circle_inv in Hc as [-> _].
  unfold Circle.area, Circle.perimeter, Circle.getDiameter.
  cbn [Circle.radius_]. rewrite !leb_spec, zero_repr.
  split; [| split]; apply signed_false_nonneg.
  - apply area_signed, Hr.
  - exact (constant_times_positive _ r _ _ Circle_two_PI_repr Hr).
  - exact (constant_times_positive _ r _ _ two_repr Hr).
Qed.

Lemma Circle_measures_range_witness :
  (0 <=? Circle.area {| Circle.radius_ := 5 |}) = true /\
  (0 <=? Circle.perimeter {| Circle.radius_ := 5 |}) = true /\
  (0 <=? Circle.getDiameter {| Circle.radius_ := 5 |}) = true.
Proof.
  apply (proj1 Circle_measures_range 5 {| Circle.radius_ := 5 |});
    reflexivity.
Defined.

End CircleRange.

(** ** MathUtils: parity and sign *)

Section MathUtilsParity.
Local Open Scope float_scope.

(** X7. [square] is even, [square(-x) = square(x)], and its value is
    [>= 0] for every argument but a NaN (for which it is a NaN), the
    zeros and infinities of either sign included. *)
Theorem square_even_nonnegative (x : float) :
  MathUtils.square (- x) = MathUtils.square x /\
  (0 <=? MathUtils.square x) = negb (isnan x).
Proof.
  split.
  - apply Prim2SF_inj. unfold MathUtils.square.
    rewrite !mul_spec, opp_spec. apply SF64mul_opp_opp.
  - unfold MathUtils.square, isnan. rewrite leb_spec, mul_spec, zero_repr.
    destruct (Prim2SF x) as [[] | [] | | s m e]; try reflexivity.
    cbn [negb]. apply signed_false_nonneg.
    rewrite <- (xorb_nilpotent s). apply SF64mul_finite_signed.
Qed.

(** X8. [cube] is odd: [cube(-x) = -cube(x)] for every [double], the
    zeros, the infinities and NaN included. *)
Theorem cube_odd (x : float) :
  MathUtils.cube (- x) = - MathUtils.cube x.
Proof.
  apply Prim2SF_inj. unfold MathUtils.cube.
  rewrite opp_spec, !mul_spec, opp_spec.
  rewrite SF64mul_opp_opp. apply SF64mul_opp_r.
Qed.

End MathUtilsParity.

(** ** The printing loop *)

Section Printing.



End Printing.
